(** * TodoApp/routers/auth.py: user registration

    A shallow embedding of the registration route of the TodoApp backend:
    the request schema [CreateUserRequest], the session dependency [get_db]
    and the handler [create_user], together with the collaborators the
    handler talks to (the ORM session, the bcrypt hashing context and the
    web framework's request pipeline), modelled as far as the handler
    observes them. *)

From Stdlib Require Import String Ascii List Bool Arith Lia.
From stdpp Require Import base option list gmap strings.

Open Scope string_scope.
Open Scope list_scope.

(** ** Data *)

#[local] Set Warnings "-register-all".

(** A decoded JSON value, as the framework hands it to schema validation. *)
Inductive JSON : Type :=
| JNull
| JBool (b : bool)
| JNumber (n : Z)
| JString (s : string)
| JArray (items : list JSON)
| JObject (members : list (string * JSON)).

(** [class CreateUserRequest(BaseModel)]: six fields, all annotated [str]. *)
Record CreateUserRequest : Type := {
  username : string;
  email : string;
  first_name : string;
  last_name : string;
  password : string;
  role : string
}.

(** The keyword arguments [create_user] passes to [Users(...)], i.e. the
    columns of a user row the handler fills in. *)
Record Users : Type := {
  u_email : string;
  u_username : string;
  u_first_name : string;
  u_last_name : string;
  u_role : string;
  hashed_password : string;
  is_active : bool
}.

(** Exceptions that can leave the route. *)
Inductive Exn : Type :=
| RequestValidationError   (* the body does not fit [CreateUserRequest] *)
| PasswordValueError       (* the hashing context refuses the secret *)
| UnicodeEncodeError       (* a text cannot be encoded as UTF-8 *)
| IntegrityError.          (* a uniqueness constraint rejects the INSERT *)

(** What a Python call returns to its caller: [None] or a user object (the
    handler's commented-out [return create_user_model]). *)
Inductive PyValue : Type :=
| PyNone
| PyUsers (u : Users).

(** Observable steps, in program order. *)
Inductive Event : Type :=
| EvOpen (db : nat)              (* SessionLocal() *)
| EvHash (secret : string)       (* bcrypt_context.hash(secret) entered *)
| EvNew (u : Users)              (* Users(...) constructed *)
| EvAdd (db : nat) (u : Users)   (* db.add(u) *)
| EvCommit (db : nat)            (* db.commit() succeeded *)
| EvRollback (db : nat)          (* db.commit() failed, transaction undone *)
| EvClose (db : nat).            (* db.close() *)

(** The state all requests share: the committed rows of the users table,
    the live session objects (each with its list of pending inserts, keyed
    by identity), and how much of the operating system's randomness the
    hashing context has consumed. *)
Record World : Type := {
  users_table : list Users;
  sessions : gmap nat (list Users);
  next_session : nat;
  salts_drawn : nat
}.

(** ** Python calls as state transformers that return or raise *)

Inductive Outcome (A : Type) : Type :=
| Returned (a : A)
| Raised (e : Exn).
Arguments Returned {A} a.
Arguments Raised {A} e.

Record Run (A : Type) : Type := {
  outcome : Outcome A;
  world : World;
  events : list Event
}.
Arguments outcome {A} r.
Arguments world {A} r.
Arguments events {A} r.

Definition Py (A : Type) : Type := World -> Run A.

Definition ret {A} (a : A) : Py A :=
  fun w => {| outcome := Returned a; world := w; events := [] |}.

Definition raise {A} (e : Exn) : Py A :=
  fun w => {| outcome := Raised e; world := w; events := [] |}.

Definition bind {A B} (m : Py A) (k : A -> Py B) : Py B :=
  fun w =>
    let r := m w in
    match outcome r with
    | Returned a =>
        let r' := k a (world r) in
        {| outcome := outcome r'; world := world r';
           events := events r ++ events r' |}
    | Raised e =>
        {| outcome := Raised e; world := world r; events := events r |}
    end.

(** [try: body finally: cleanup]: the cleanup runs whether the body
    returned or raised; an exception of the cleanup replaces the body's
    result. *)
Definition try_finally {A} (body : Py A) (cleanup : Py unit) : Py A :=
  fun w =>
    let r := body w in
    let c := cleanup (world r) in
    {| outcome := match outcome c with
                  | Returned _ => outcome r
                  | Raised e => Raised e
                  end;
       world := world c;
       events := events r ++ events c |}.

Definition emit (e : Event) : Py unit :=
  fun w => {| outcome := Returned tt; world := w; events := [e] |}.

Declare Scope py_scope.
Delimit Scope py_scope with py.
Notation "'do' x <- m ; k" := (bind m (fun x => k))
  (at level 10, x name, m at level 100, k at level 200) : py_scope.

(** ** Schema validation *)

(** A declared [str] field is satisfied by a member that is present and is
    a JSON string; its content is not inspected. *)
Definition str_field (body : gmap string JSON) (name : string) : option string :=
  match body !! name with
  | Some (JString s) => Some s
  | _ => None
  end.

(** Validation of a request body against [CreateUserRequest]; members the
    schema does not declare are ignored. *)
Definition validate (body : gmap string JSON) : option CreateUserRequest :=
  match str_field body "username", str_field body "email",
        str_field body "first_name", str_field body "last_name",
        str_field body "password", str_field body "role" with
  | Some u, Some e, Some f, Some l, Some p, Some r =>
      Some {| username := u; email := e; first_name := f;
              last_name := l; password := p; role := r |}
  | _, _, _, _, _, _ => None
  end.

Definition required_fields : list string :=
  ["username"; "email"; "first_name"; "last_name"; "password"; "role"].

(** The JSON object a client sends for six given strings. *)
Definition payload (u e f l p r : string) : gmap string JSON :=
  <["username" := JString u]> (<["email" := JString e]>
  (<["first_name" := JString f]> (<["last_name" := JString l]>
  (<["password" := JString p]> (<["role" := JString r]> ∅))))).

(** ** The ORM session *)

(** Modelled from the spec: the table declaration [models.Users] is not
    among the sources; the spec names a uniqueness constraint on the
    username and on the email of a row. *)
Definition conflicts (u v : Users) : bool :=
  String.eqb (u_username u) (u_username v) || String.eqb (u_email u) (u_email v).

(** The text columns of a row can all be bound as statement parameters:
    the database driver encodes them as UTF-8, and [encodable] tells which
    texts it can encode (a text with a lone surrogate it cannot). *)
Definition row_encodable (encodable : string -> bool) (u : Users) : bool :=
  forallb encodable
    [u_email u; u_username u; u_first_name u; u_last_name u; u_role u;
     hashed_password u].

(** INSERT of one row into the table: the parameters are bound first, then
    the statement runs and the constraint is checked. *)
Definition insert_row (encodable : string -> bool)
    (table : list Users) (u : Users) : Outcome (list Users) :=
  if negb (row_encodable encodable u) then Raised UnicodeEncodeError
  else if existsb (conflicts u) table then Raised IntegrityError
  else Returned (table ++ [u]).

(** The flush of a session: its pending rows are inserted in the order they
    were added; the first row that fails fails the whole flush. *)
Fixpoint flush (encodable : string -> bool)
    (table : list Users) (rows : list Users) : Outcome (list Users) :=
  match rows with
  | [] => Returned table
  | u :: rest =>
      match insert_row encodable table u with
      | Returned table' => flush encodable table' rest
      | Raised e => Raised e
      end
  end.

Definition pending (w : World) (db : nat) : list Users :=
  default [] (sessions w !! db).

Definition set_pending (db : nat) (rows : list Users) (w : World) : World :=
  {| users_table := users_table w;
     sessions := <[db := rows]> (sessions w);
     next_session := next_session w;
     salts_drawn := salts_drawn w |}.

(** Modelled from the spec: [database.SessionLocal] is not among the
    sources; the spec has it as the connection factory from which each
    request derives its one session.  [SessionLocal()] gives a new session
    object with nothing pending. *)
Definition SessionLocal : Py nat :=
  fun w =>
    let db := next_session w in
    {| outcome := Returned db;
       world := {| users_table := users_table w;
                   sessions := <[db := []]> (sessions w);
                   next_session := S db;
                   salts_drawn := salts_drawn w |};
       events := [EvOpen db] |}.

(** [db.add(u)]: the row becomes pending; nothing reaches the table. *)
Definition db_add (db : nat) (u : Users) : Py unit :=
  fun w =>
    {| outcome := Returned tt;
       world := set_pending db (pending w db ++ [u]) w;
       events := [EvAdd db u] |}.

(** [db.commit()]: flush the pending rows and make them durable, or raise
    what the flush raised and undo the transaction. *)
Definition db_commit (encodable : string -> bool) (db : nat) : Py unit :=
  fun w =>
    match flush encodable (users_table w) (pending w db) with
    | Returned table' =>
        {| outcome := Returned tt;
           world := {| users_table := table';
                       sessions := <[db := []]> (sessions w);
                       next_session := next_session w;
                       salts_drawn := salts_drawn w |};
           events := [EvCommit db] |}
    | Raised e =>
        {| outcome := Raised e;
           world := set_pending db [] w;
           events := [EvRollback db] |}
    end.

(** [db.close()]: whatever is still pending is dropped; the table is not
    touched. *)
Definition db_close (db : nat) : Py unit :=
  fun w =>
    {| outcome := Returned tt;
       world := set_pending db [] w;
       events := [EvClose db] |}.

(** [get_db]: the generator dependency, read as the context manager the
    framework makes of it.
<<
    def get_db():
        db = SessionLocal()
        try:
            yield db
        finally:
            db.close()
>>
    [use] is what runs while the generator is suspended at its [yield]. *)
Definition get_db {A} (use : nat -> Py A) : Py A :=
  (do db <- SessionLocal;
   try_finally (use db) (db_close db))%py.

(** ** Reading event lists *)

Definition is_open (db : nat) (e : Event) : bool :=
  match e with EvOpen d => Nat.eqb d db | _ => false end.

Definition is_close (db : nat) (e : Event) : bool :=
  match e with EvClose d => Nat.eqb d db | _ => false end.

(** Events of the session life cycle: acquisition and release. *)
Definition lifecycle (e : Event) : bool :=
  match e with EvOpen _ | EvClose _ => true | _ => false end.

Definition is_commit (e : Event) : bool :=
  match e with EvCommit _ => true | _ => false end.

Definition count (p : Event -> bool) (evs : list Event) : nat :=
  length (List.filter p evs).

(** Membership of an event in an explicit event list, case by case. *)
Ltac in_events H :=
  simpl in H;
  repeat match type of H with
         | _ \/ _ => destruct H as [H|H]
         | False => destruct H
         end;
  try discriminate H.

(** A handler that neither opens nor closes sessions itself. *)
Definition leaves_sessions_alone {A} (use : nat -> Py A) : Prop :=
  forall db w, count lifecycle (events (use db w)) = 0.

Definition has_username (name : string) (u : Users) : bool :=
  String.eqb (u_username u) name.

(** ** Reading tables and outcomes *)

Definition is_returned {A} (o : Outcome A) : bool :=
  match o with Returned _ => true | Raised _ => false end.

(** No two rows of the table share a username or an email. *)
Fixpoint no_conflicts (table : list Users) : bool :=
  match table with
  | [] => true
  | u :: rest => negb (existsb (conflicts u) rest) && no_conflicts rest
  end.

(** The username or the email of a request is already in the table. *)
Definition taken (req : CreateUserRequest) (table : list Users) : bool :=
  existsb (fun x => String.eqb (username req) (u_username x)
                    || String.eqb (email req) (u_email x)) table.

(** ** Sample data *)

Definition empty_world : World :=
  {| users_table := []; sessions := ∅; next_session := 0; salts_drawn := 0 |}.

Definition alice_payload : gmap string JSON :=
  payload "alice" "a@x.com" "A" "L" "secret123" "user".

Definition alice_request : CreateUserRequest :=
  {| username := "alice"; email := "a@x.com"; first_name := "A";
     last_name := "L"; password := "secret123"; role := "user" |}.

(** A second request for the username "alice", and alice's body without
    its password. *)
Definition alice_again_payload : gmap string JSON :=
  payload "alice" "alice@y.org" "Al" "Ice" "hunter2" "admin".

Definition alice_again_request : CreateUserRequest :=
  {| username := "alice"; email := "alice@y.org"; first_name := "Al";
     last_name := "Ice"; password := "hunter2"; role := "admin" |}.

Definition alice_without_password : gmap string JSON :=
  delete "password" alice_payload.

(** Stand-ins for the checksum, the refused secrets, the salt source and
    the encodable texts, to run the route on concrete requests: a secret is
    refused for a NUL character or for being over 4096 characters long, the
    latter before any salt is generated; the texts used here are made of
    one-byte characters, all of which can be encoded. *)
Definition sample_checksum (salt secret : string) : string :=
  "CHK" +:+ salt +:+ secret.

Definition sample_refuses (secret : string) : bool :=
  existsb (Ascii.eqb zero) (list_ascii_of_string secret)
  || Nat.ltb 4096 (String.length secret).

Definition sample_unsalted (secret : string) : bool :=
  Nat.ltb 4096 (String.length secret).

Definition sample_encodable (text : string) : bool := true.

Definition sample_gensalt (n : nat) : string :=
  if Nat.even n then "abcdefghijklmnopqrstuO" else "ABCDEFGHIJKLMNOPQRSTUe".

(** The row alice's request yields with these stand-ins, first salt. *)
Definition alice_row : Users :=
  {| u_email := "a@x.com"; u_username := "alice"; u_first_name := "A";
     u_last_name := "L"; u_role := "user";
     hashed_password :=
       "$2b$12$abcdefghijklmnopqrstuOCHKabcdefghijklmnopqrstuOsecret123";
     is_active := true |}.

(** Another user with alice's password. *)
Definition bob_payload : gmap string JSON :=
  payload "bob" "b@x.com" "B" "O" "secret123" "user".

Definition bob_request : CreateUserRequest :=
  {| username := "bob"; email := "b@x.com"; first_name := "B";
     last_name := "O"; password := "secret123"; role := "user" |}.

Definition bob_row : Users :=
  {| u_email := "b@x.com"; u_username := "bob"; u_first_name := "B";
     u_last_name := "O"; u_role := "user";
     hashed_password := "not hashed here"; is_active := true |}.

(** A request for alice's username whose password starts with a NUL
    character. *)
Definition nul_password : string := String zero "hunter2".

Definition alice_nul_payload : gmap string JSON :=
  payload "alice" "alice@y.org" "Al" "Ice" nul_password "admin".

Definition alice_nul_request : CreateUserRequest :=
  {| username := "alice"; email := "alice@y.org"; first_name := "Al";
     last_name := "Ice"; password := nul_password; role := "admin" |}.

(** A world in which another request is under way: its session 7 holds a
    row that is not committed yet. *)
Definition busy_world : World :=
  {| users_table := []; sessions := {[ 7 := [bob_row] ]};
     next_session := 8; salts_drawn := 0 |}.

(** ** The hashing context, the handler and the route *)

Section Route.

(** [bcrypt_context = CryptContext(schemes=['bcrypt'], deprecated='auto')]
    is an object of the passlib library; the sources only construct it.
    Left open here are: the Blowfish-based checksum of a salt and a secret,
    the secrets the context refuses to hash, and the salts the operating
    system's random source delivers, call after call; further, which of
    the refused secrets are turned away before a salt is generated (those
    over the size limit), and which texts can be encoded as UTF-8 (by the
    hashing context as by the database driver). *)
Variable bcrypt_checksum : string -> string -> string.
Variable hash_refuses : string -> bool.
Variable gensalt : nat -> string.
Variable refused_unsalted : string -> bool.
Variable encodable : string -> bool.

(** Modelled from the spec: the code of the hashing policy is not among
    the sources.  The spec asks for a salted, versioned one-way hash with
    the algorithm identifier embedded in the output and one output format
    for all calls; for bcrypt that format is the identifier and cost, then
    the salt of the call in 22 characters, then the checksum. *)
Definition bcrypt_ident : string := "$2b$12$".

Definition bcrypt_string (salt secret : string) : string :=
  bcrypt_ident +:+ salt +:+ bcrypt_checksum salt secret.

(** The exception a refused secret is refused with: a secret that is over
    the size limit or holds a NUL character gets a [PasswordValueError], a
    secret that cannot be encoded fails in the encoding. *)
Definition refusal (secret : string) : Exn :=
  if refused_unsalted secret then PasswordValueError
  else if encodable secret then PasswordValueError
  else UnicodeEncodeError.

(** Modelled from the spec: [bcrypt_context.hash(secret)].  The size of
    the secret is checked first; then a salt is generated for the call;
    then the secret is encoded, checked and hashed.  Hashing may fail, and
    the handler does not catch that. *)
Definition bcrypt_context_hash (secret : string) : Py string :=
  fun w =>
    if hash_refuses secret && refused_unsalted secret then
      {| outcome := Raised (refusal secret);
         world := w;
         events := [EvHash secret] |}
    else
      let salt := gensalt (salts_drawn w) in
      {| outcome := if hash_refuses secret then Raised (refusal secret)
                    else Returned (bcrypt_string salt secret);
         world := {| users_table := users_table w;
                     sessions := sessions w;
                     next_session := next_session w;
                     salts_drawn := S (salts_drawn w) |};
         events := [EvHash secret] |}.

(** [Users(email=..., username=..., ...)]. *)
Definition Users_new (e u f l r h : string) (active : bool) : Py Users :=
  let row := {| u_email := e; u_username := u; u_first_name := f;
                u_last_name := l; u_role := r; hashed_password := h;
                is_active := active |} in
  (do _ <- emit (EvNew row); ret row)%py.

(** The handler.
<<
    async def create_user(db: db_dependency,
                          create_user_request: CreateUserRequest):
        create_user_model = Users(
            email= create_user_request.email,
            username= create_user_request.username,
            first_name= create_user_request.first_name,
            last_name = create_user_request.last_name,
            role= create_user_request.role,
            hashed_password= bcrypt_context.hash(create_user_request.password),
            is_active= True
        )
        #return create_user_model
        db.add(create_user_model)
        db.commit()
>>
    The keyword arguments are evaluated before the constructor runs, so the
    hash is computed first. *)
Definition create_user (db : nat) (create_user_request : CreateUserRequest)
  : Py PyValue :=
  (do hashed <- bcrypt_context_hash (password create_user_request);
   do create_user_model <-
     Users_new (email create_user_request)
               (username create_user_request)
               (first_name create_user_request)
               (last_name create_user_request)
               (role create_user_request)
               hashed
               true;
   do _ <- db_add db create_user_model;
   do _ <- db_commit encodable db;
   ret PyNone)%py.

Definition HTTP_201_CREATED : nat := 201.
Definition HTTP_422_UNPROCESSABLE_ENTITY : nat := 422.
Definition HTTP_500_INTERNAL_SERVER_ERROR : nat := 500.

(** What the framework does for [create_user]'s parameters once the
    session exists: the body is validated against [CreateUserRequest], and
    the handler is called only if the body fits. *)
Definition call_endpoint (body : gmap string JSON) (db : nat) : Py PyValue :=
  match validate body with
  | Some create_user_request => create_user db create_user_request
  | None => raise RequestValidationError
  end.

(** The route, [@router.post("/auth", status_code=status.HTTP_201_CREATED)]:
    the framework enters the [Depends(get_db)] dependency first and leaves
    it when the request is over. *)
Definition post_auth (body : gmap string JSON) : Py PyValue :=
  get_db (call_endpoint body).

Inductive ResponseBody : Type :=
| Content (v : PyValue)     (* what the handler returned *)
| ErrorDetail (e : Exn).    (* the framework's error page *)

Record Response : Type := {
  status_code : nat;
  response_body : ResponseBody
}.

(** The response the framework derives from how the route ended: the
    route's declared status on return, its defaults otherwise. *)
Definition respond (o : Outcome PyValue) : Response :=
  match o with
  | Returned v =>
      {| status_code := HTTP_201_CREATED; response_body := Content v |}
  | Raised RequestValidationError =>
      {| status_code := HTTP_422_UNPROCESSABLE_ENTITY;
         response_body := ErrorDetail RequestValidationError |}
  | Raised e =>
      {| status_code := HTTP_500_INTERNAL_SERVER_ERROR;
         response_body := ErrorDetail e |}
  end.

Definition is_client_error (r : Response) : bool :=
  Nat.leb 400 (status_code r) && Nat.ltb (status_code r) 500.

(** The row [create_user] builds from a request and the hash it got. *)
Definition registration_row (req : CreateUserRequest) (hashed : string) : Users :=
  {| u_email := email req; u_username := username req;
     u_first_name := first_name req; u_last_name := last_name req;
     u_role := role req; hashed_password := hashed; is_active := true |}.

(** A request for which the hashing context generates a salt: its body is
    valid and its password is not turned away for its size. *)
Definition draws_salt (body : gmap string JSON) : bool :=
  match validate body with
  | Some req =>
      negb (hash_refuses (password req) && refused_unsalted (password req))
  | None => false
  end.

(** The application serving requests one after the other: each request
    runs the route on the world its predecessor left. *)
Fixpoint serve (bodies : list (gmap string JSON)) (w : World)
  : list (Outcome PyValue) * World :=
  match bodies with
  | [] => ([], w)
  | body :: rest =>
      let r := post_auth body w in
      let (outcomes, w') := serve rest (world r) in
      (outcome r :: outcomes, w')
  end.

(** The world once a salt has been drawn. *)
Definition salted (w : World) : World :=
  {| users_table := users_table w; sessions := sessions w;
     next_session := next_session w; salts_drawn := S (salts_drawn w) |}.

(** ** Facts about the collaborators *)

Lemma pending_set_pending db rows w :
  pending (set_pending db rows w) db = rows.
Proof. unfold pending, set_pending; simpl. by rewrite lookup_insert_eq. Qed.

Lemma pending_SessionLocal w :
  pending (world (SessionLocal w)) (next_session w) = [].
Proof. unfold pending, SessionLocal; simpl. by rewrite lookup_insert_eq. Qed.

Lemma flush_one table u :
  flush encodable table [u] = insert_row encodable table u.
Proof. simpl. by destruct (insert_row encodable table u). Qed.

Lemma count_app p (a b : list Event) : count p (a ++ b) = count p a + count p b.
Proof. unfold count. by rewrite List.filter_app, length_app. Qed.

Lemma count_le p q (evs : list Event) :
  (forall e, p e = true -> q e = true) -> count p evs <= count q evs.
Proof.
  intros Hpq. unfold count. induction evs as [|e evs IH]; simpl; [lia|].
  destruct (p e) eqn:Hp.
  - rewrite (Hpq e Hp). simpl. lia.
  - destruct (q e); simpl; lia.
Qed.

Lemma filter_no_conflict row table :
  existsb (conflicts row) table = false ->
  List.filter (has_username (u_username row)) table = [].
Proof.
  induction table as [|x table IH]; simpl; [done|].
  intros H. apply orb_false_elim in H as [Hx Ht].
  unfold conflicts in Hx. apply orb_false_elim in Hx as [Hx _].
  unfold has_username at 1. rewrite String.eqb_sym, Hx. by apply IH.
Qed.

Lemma taken_conflicts req hashed table :
  existsb (conflicts (registration_row req hashed)) table = taken req table.
Proof. reflexivity. Qed.

(** The three ways an INSERT can end. *)
Lemma insert_row_cases table row :
  (row_encodable encodable row = false /\
   insert_row encodable table row = Raised UnicodeEncodeError)
  \/
  (row_encodable encodable row = true /\
   existsb (conflicts row) table = true /\
   insert_row encodable table row = Raised IntegrityError)
  \/
  (row_encodable encodable row = true /\
   existsb (conflicts row) table = false /\
   insert_row encodable table row = Returned (table ++ [row])).
Proof.
  unfold insert_row. destruct (row_encodable encodable row); simpl;
    [|by left].
  right. destruct (existsb (conflicts row) table); [left|right]; by repeat split.
Qed.

(** ** The route, case by case *)

(** Running a sequence: the first call returned, or raised. *)
Lemma bind_returned {A B} (m : Py A) (k : A -> Py B) w a w1 ev1 o w2 ev2 evs :
  m w = {| outcome := Returned a; world := w1; events := ev1 |} ->
  evs = ev1 ++ ev2 ->
  k a w1 = {| outcome := o; world := w2; events := ev2 |} ->
  bind m k w = {| outcome := o; world := w2; events := evs |}.
Proof. intros Hm -> Hk. unfold bind. rewrite Hm. cbn. by rewrite Hk. Qed.

Lemma bind_raised {A B} (m : Py A) (k : A -> Py B) w e w1 ev1 :
  m w = {| outcome := Raised e; world := w1; events := ev1 |} ->
  bind m k w = {| outcome := Raised e; world := w1; events := ev1 |}.
Proof. intros Hm. unfold bind. by rewrite Hm. Qed.

Lemma create_user_refused db req w :
  hash_refuses (password req) = true ->
  create_user db req w =
    {| outcome := Raised (refusal (password req));
       world := if refused_unsalted (password req) then w else salted w;
       events := [EvHash (password req)] |}.
Proof.
  intros Hr. unfold create_user. apply bind_raised.
  unfold bcrypt_context_hash. rewrite Hr.
  by destruct (refused_unsalted (password req)).
Qed.

Lemma create_user_accepted db req w :
  hash_refuses (password req) = false ->
  let row := registration_row req
               (bcrypt_string (gensalt (salts_drawn w)) (password req)) in
  let rows := pending w db ++ [row] in
  create_user db req w =
    match flush encodable (users_table w) rows with
    | Returned table' =>
        {| outcome := Returned PyNone;
           world := {| users_table := table';
                       sessions := <[db := []]> (<[db := rows]> (sessions w));
                       next_session := next_session w;
                       salts_drawn := S (salts_drawn w) |};
           events := [EvHash (password req); EvNew row; EvAdd db row;
                      EvCommit db] |}
    | Raised e =>
        {| outcome := Raised e;
           world := {| users_table := users_table w;
                       sessions := <[db := []]> (<[db := rows]> (sessions w));
                       next_session := next_session w;
                       salts_drawn := S (salts_drawn w) |};
           events := [EvHash (password req); EvNew row; EvAdd db row;
                      EvRollback db] |}
    end.
Proof.
  intros Hr row rows. unfold create_user.
  set (w1 := salted w).
  assert (Hp : pending (set_pending db rows w1) db = rows)
    by apply pending_set_pending.
  assert (Hhash : bcrypt_context_hash (password req) w
                  = {| outcome := Returned (bcrypt_string
                                              (gensalt (salts_drawn w))
                                              (password req));
                       world := w1; events := [EvHash (password req)] |}).
  { unfold bcrypt_context_hash. by rewrite Hr. }
  destruct (flush encodable (users_table w) rows) as [table'|e] eqn:Hflush.
  - eapply bind_returned; [exact Hhash|reflexivity|].
    eapply bind_returned; [reflexivity|reflexivity|].
    eapply bind_returned; [reflexivity|reflexivity|].
    eapply bind_returned.
    { unfold db_commit.
      change (flush encodable _ _)
        with (flush encodable (users_table w)
                (pending (set_pending db rows w1) db)).
      rewrite Hp, Hflush. reflexivity. }
    { reflexivity. }
    reflexivity.
  - eapply bind_returned; [exact Hhash|reflexivity|].
    eapply bind_returned; [reflexivity|reflexivity|].
    eapply bind_returned; [reflexivity|reflexivity|].
    apply bind_raised. unfold db_commit.
    change (flush encodable _ _)
      with (flush encodable (users_table w)
              (pending (set_pending db rows w1) db)).
    rewrite Hp, Hflush. reflexivity.
Qed.

(** The handler itself never opens or closes a session. *)
Lemma create_user_leaves_sessions_alone req :
  leaves_sessions_alone (fun db => create_user db req).
Proof.
  intros db w. destruct (hash_refuses (password req)) eqn:Hr.
  - by rewrite (create_user_refused db req w Hr).
  - rewrite (create_user_accepted db req w Hr). cbv zeta.
    by destruct (flush _ _ _).
Qed.

(** Whatever the world, the handler returns [None] if it returns. *)
Lemma create_user_returns_none db req w v :
  outcome (create_user db req w) = Returned v -> v = PyNone.
Proof.
  destruct (hash_refuses (password req)) eqn:Hr.
  - by rewrite (create_user_refused db req w Hr).
  - rewrite (create_user_accepted db req w Hr). cbv zeta.
    destruct (flush _ _ _); cbn; congruence.
Qed.

(** What the dependency adds around the code it wraps. *)
Lemma get_db_run {A} (use : nat -> Py A) w :
  let db := next_session w in
  let inner := use db (world (SessionLocal w)) in
  outcome (get_db use w) = outcome inner /\
  events (get_db use w) = EvOpen db :: events inner ++ [EvClose db] /\
  world (get_db use w) = set_pending db [] (world inner).
Proof. repeat split. Qed.

Lemma post_auth_run body w :
  let db := next_session w in
  let inner := call_endpoint body db (world (SessionLocal w)) in
  outcome (post_auth body w) = outcome inner /\
  events (post_auth body w) = EvOpen db :: events inner ++ [EvClose db] /\
  users_table (world (post_auth body w)) = users_table (world inner) /\
  salts_drawn (world (post_auth body w)) = salts_drawn (world inner) /\
  pending (world (post_auth body w)) db = [].
Proof.
  intros db inner.
  destruct (get_db_run (call_endpoint body) w) as (Ho & He & Hw).
  fold (post_auth body) in Ho, He, Hw. fold db inner in Ho, He, Hw.
  rewrite Ho, He, Hw. repeat split. apply pending_set_pending.
Qed.

Lemma post_auth_invalid body w :
  validate body = None ->
  let r := post_auth body w in
  outcome r = Raised RequestValidationError /\
  events r = [EvOpen (next_session w); EvClose (next_session w)] /\
  users_table (world r) = users_table w /\
  salts_drawn (world r) = salts_drawn w /\
  pending (world r) (next_session w) = [].
Proof.
  intros Hv r. destruct (post_auth_run body w) as (Ho & He & Ht & Hs & Hp).
  fold r in Ho, He, Ht, Hs, Hp. unfold call_endpoint in Ho, He, Ht, Hs.
  rewrite Hv in Ho, He, Ht, Hs. by repeat split.
Qed.

Lemma post_auth_refused body req w :
  validate body = Some req ->
  hash_refuses (password req) = true ->
  let r := post_auth body w in
  outcome r = Raised (refusal (password req)) /\
  events r = [EvOpen (next_session w); EvHash (password req);
              EvClose (next_session w)] /\
  users_table (world r) = users_table w /\
  pending (world r) (next_session w) = [] /\
  salts_drawn (world r)
  = (if refused_unsalted (password req) then salts_drawn w
     else S (salts_drawn w)).
Proof.
  intros Hv Hr r. destruct (post_auth_run body w) as (Ho & He & Ht & Hs & Hp).
  fold r in Ho, He, Ht, Hs, Hp. unfold call_endpoint in Ho, He, Ht, Hs.
  rewrite Hv, (create_user_refused _ req _ Hr) in Ho, He, Ht, Hs.
  repeat split; try assumption.
  - rewrite Ht. by destruct (refused_unsalted (password req)).
  - rewrite Hs. by destruct (refused_unsalted (password req)).
Qed.

Lemma post_auth_hashed body req w :
  validate body = Some req ->
  hash_refuses (password req) = false ->
  let db := next_session w in
  let row := registration_row req
               (bcrypt_string (gensalt (salts_drawn w)) (password req)) in
  let r := post_auth body w in
  salts_drawn (world r) = S (salts_drawn w) /\
  pending (world r) db = [] /\
  match insert_row encodable (users_table w) row with
  | Raised e =>
      outcome r = Raised e /\
      events r = [EvOpen db; EvHash (password req); EvNew row; EvAdd db row;
                  EvRollback db; EvClose db] /\
      users_table (world r) = users_table w
  | Returned table' =>
      outcome r = Returned PyNone /\
      events r = [EvOpen db; EvHash (password req); EvNew row; EvAdd db row;
                  EvCommit db; EvClose db] /\
      users_table (world r) = table'
  end.
Proof.
  intros Hv Hr db row r.
  destruct (post_auth_run body w) as (Ho & He & Ht & Hs & Hp).
  fold r in Ho, He, Ht, Hs, Hp. unfold call_endpoint in Ho, He, Ht, Hs.
  subst db.
  rewrite Hv, (create_user_accepted _ req _ Hr) in Ho, He, Ht, Hs.
  cbv zeta in Ho, He, Ht, Hs.
  rewrite (pending_SessionLocal w) in Ho, He, Ht, Hs.
  cbn [app] in Ho, He, Ht, Hs. rewrite flush_one in Ho, He, Ht, Hs.
  change (salts_drawn (world (SessionLocal w))) with (salts_drawn w)
    in Ho, He, Ht, Hs.
  change (users_table (world (SessionLocal w))) with (users_table w)
    in Ho, He, Ht, Hs.
  fold row in Ho, He, Ht, Hs.
  destruct (insert_row encodable (users_table w) row); by repeat split.
Qed.

(** Every request at a glance: how it ends, what it logs, what it leaves. *)
Lemma post_auth_cases body w :
  let db := next_session w in
  let r := post_auth body w in
  (validate body = None /\
   outcome r = Raised RequestValidationError /\
   events r = [EvOpen db; EvClose db] /\
   users_table (world r) = users_table w /\
   salts_drawn (world r) = salts_drawn w)
  \/
  (exists req,
     validate body = Some req /\
     let row := registration_row req
                  (bcrypt_string (gensalt (salts_drawn w)) (password req)) in
     (hash_refuses (password req) = true /\
      outcome r = Raised (refusal (password req)) /\
      events r = [EvOpen db; EvHash (password req); EvClose db] /\
      users_table (world r) = users_table w /\
      salts_drawn (world r)
      = (if refused_unsalted (password req) then salts_drawn w
         else S (salts_drawn w)))
     \/
     (hash_refuses (password req) = false /\
      salts_drawn (world r) = S (salts_drawn w) /\
      ((exists e,
          insert_row encodable (users_table w) row = Raised e /\
          outcome r = Raised e /\
          events r = [EvOpen db; EvHash (password req); EvNew row;
                      EvAdd db row; EvRollback db; EvClose db] /\
          users_table (world r) = users_table w)
       \/
       (row_encodable encodable row = true /\
        taken req (users_table w) = false /\
        outcome r = Returned PyNone /\
        events r = [EvOpen db; EvHash (password req); EvNew row;
                    EvAdd db row; EvCommit db; EvClose db] /\
        users_table (world r) = users_table w ++ [row])))).
Proof.
  intros db r. destruct (validate body) as [req|] eqn:Hv.
  - right. exists req. split; [reflexivity|]. intros row.
    destruct (hash_refuses (password req)) eqn:Hr.
    + left. destruct (post_auth_refused body req w Hv Hr)
        as (Ho & He & Ht & _ & Hs). by repeat split.
    + right. destruct (post_auth_hashed body req w Hv Hr) as (Hs & _ & Hcase).
      fold r row db in Hs, Hcase. split; [reflexivity|]. split; [exact Hs|].
      destruct (insert_row_cases (users_table w) row)
        as [(_ & Hi)|[(_ & _ & Hi)|(Henc & Hfree & Hi)]];
        rewrite Hi in Hcase; destruct Hcase as (Ho & He & Ht).
      * left. exists UnicodeEncodeError. by repeat split.
      * left. exists IntegrityError. by repeat split.
      * right. by repeat split.
  - left. destruct (post_auth_invalid body w Hv) as (Ho & He & Ht & Hs & _).
    by repeat split.
Qed.

(** What a request does to the sessions: it takes the next identity, and
    no other session is touched. *)
Lemma post_auth_sessions body w :
  let r := post_auth body w in
  next_session (world r) = S (next_session w) /\
  pending (world r) (next_session w) = [] /\
  forall d, d <> next_session w ->
            sessions (world r) !! d = sessions w !! d.
Proof.
  intros r.
  destruct (get_db_run (call_endpoint body) w) as (_ & _ & Hw).
  fold (post_auth body) in Hw. cbv zeta in Hw. subst r. rewrite Hw.
  split; [|split; [apply pending_set_pending|]].
  - unfold call_endpoint. destruct (validate body) as [req|]; [|reflexivity].
    destruct (hash_refuses (password req)) eqn:Hr.
    + rewrite (create_user_refused _ req _ Hr).
      by destruct (refused_unsalted (password req)).
    + rewrite (create_user_accepted _ req _ Hr). cbv zeta.
      by destruct (flush _ _ _).
  - intros d Hd. unfold set_pending; cbn [sessions].
    rewrite lookup_insert_ne by done.
    unfold call_endpoint. destruct (validate body) as [req|].
    + destruct (hash_refuses (password req)) eqn:Hr.
      * rewrite (create_user_refused _ req _ Hr). cbn [world].
        destruct (refused_unsalted (password req)); cbn [salted sessions];
          unfold SessionLocal; cbn [world sessions];
          by rewrite lookup_insert_ne.
      * rewrite (create_user_accepted _ req _ Hr). cbv zeta.
        destruct (flush _ _ _); cbn [world sessions];
          rewrite !lookup_insert_ne by done;
          unfold SessionLocal; cbn [world sessions];
          by rewrite lookup_insert_ne.
    + cbn [raise world]. unfold SessionLocal; cbn [world sessions].
      by rewrite lookup_insert_ne.
Qed.

(** ** The layout of a bcrypt string *)

Lemma length_string_app (a b : string) :
  String.length (a +:+ b) = String.length a + String.length b.
Proof. induction a as [|c a IH]; simpl; [reflexivity | by rewrite IH]. Qed.

Lemma prefix_string_app (a b : string) : String.prefix a (a +:+ b) = true.
Proof.
  induction a as [|c a IH]; simpl.
  - by destruct b.
  - destruct (ascii_dec c c); [apply IH | congruence].
Qed.

Lemma string_app_inj (a a' b b' : string) :
  String.length a = String.length a' ->
  a +:+ b = a' +:+ b' -> a = a' /\ b = b'.
Proof.
  revert a'. induction a as [|c a IH]; intros [|c' a'] Hlen Heq;
    simpl in *; try discriminate.
  - by split.
  - injection Heq as -> Heq. injection Hlen as Hlen.
    destruct (IH a' Hlen Heq) as [-> ->]. by split.
Qed.

(** Two bcrypt strings with different salts differ, whatever the secrets. *)
Lemma bcrypt_string_salt_inj s1 s2 p1 p2 :
  String.length s1 = String.length s2 ->
  bcrypt_string s1 p1 = bcrypt_string s2 p2 -> s1 = s2.
Proof.
  intros Hlen Heq. unfold bcrypt_string in Heq.
  apply (inj (String.append bcrypt_ident)) in Heq.
  by destruct (string_app_inj _ _ _ _ Hlen Heq).
Qed.

(** ** The registration route *)

Lemma validate_alice : validate alice_payload = Some alice_request.
Proof. vm_compute. reflexivity. Qed.

(** C3: for the payload of alice, a successful call answers 201 and leaves
    the table with exactly one new row: username "alice", the submitted
    email, names and role, and a hashed secret that is not "secret123". *)
Theorem alice_registered w v :
  outcome (post_auth alice_payload w) = Returned v ->
  let r := post_auth alice_payload w in
  status_code (respond (outcome r)) = 201 /\
  length (users_table (world r)) = S (length (users_table w)) /\
  exists row,
    users_table (world r) = users_table w ++ [row] /\
    u_username row = "alice" /\
    u_email row = "a@x.com" /\
    u_first_name row = "A" /\
    u_last_name row = "L" /\
    u_role row = "user" /\
    hashed_password row <> "secret123".
Proof.
  intros Hok r. subst r.
  destruct (post_auth_cases alice_payload w)
    as [(_ & Ho & _)
       |(req & Hv & [(_ & Ho & _)
                    |(_ & _ & [(e & _ & Ho & _)|(_ & _ & Ho & _ & Ht)])])];
    try congruence.
  rewrite validate_alice in Hv. injection Hv as <-.
  rewrite Ho, Ht. split; [reflexivity|].
  split; [rewrite length_app; simpl; lia|].
  eexists. split; [reflexivity|]. repeat split. discriminate.
Qed.

(** C4: for every valid registration payload, the user record the handler
    creates has its active flag set: the record it constructs, the record
    it hands to the session, and any row the call adds to the table; and a
    record is constructed whenever the hashing context accepts the
    password. *)
Theorem created_user_is_active body req w :
  validate body = Some req ->
  let r := post_auth body w in
  (forall u, In (EvNew u) (events r) -> is_active u = true) /\
  (forall db u, In (EvAdd db u) (events r) -> is_active u = true) /\
  (forall u, In u (users_table (world r)) ->
             In u (users_table w) \/ is_active u = true) /\
  (hash_refuses (password req) = false ->
   exists u, In (EvNew u) (events r) /\ is_active u = true).
Proof.
  intros Hv r. subst r.
  destruct (post_auth_cases body w)
    as [(Hv' & _)
       |(req' & Hv' & [(Hr & _ & He & Ht & _)
                      |(Hr & _ & [(e & _ & _ & He & Ht)
                                 |(_ & _ & _ & He & Ht)])])];
    [congruence|..];
    rewrite Hv in Hv'; injection Hv' as <-; rewrite He, Ht; repeat split.
  - intros u Hin. in_events Hin.
  - intros db u Hin. in_events Hin.
  - intros u Hin. by left.
  - congruence.
  - intros u Hin. in_events Hin. by injection Hin as <-.
  - intros db u Hin. in_events Hin. by injection Hin as _ <-.
  - intros u Hin. by left.
  - intros _. eexists. split; [right; right; left; reflexivity|reflexivity].
  - intros u Hin. in_events Hin. by injection Hin as <-.
  - intros db u Hin. in_events Hin. by injection Hin as _ <-.
  - intros u Hin. apply in_app_or in Hin as [Hin|Hin]; [by left|].
    in_events Hin. subst u. by right.
  - intros _. eexists. split; [right; right; left; reflexivity|reflexivity].
Qed.

(** C8: a successful registration call hands nothing back: the handler's
    return value is [None], the response carries no content of the
    handler's beyond that, and the 201 status is what tells success apart
    from every other way the call can end. *)
Theorem registration_returns_nothing body w v :
  outcome (post_auth body w) = Returned v ->
  v = PyNone /\
  respond (outcome (post_auth body w))
  = {| status_code := HTTP_201_CREATED; response_body := Content PyNone |} /\
  (forall o, status_code (respond o) = HTTP_201_CREATED
             <-> exists v', o = Returned v').
Proof.
  intros Hok.
  assert (Hv : v = PyNone).
  { destruct (post_auth_cases body w)
      as [(_ & Ho & _)
         |(req & _ & [(_ & Ho & _)
                     |(_ & _ & [(e & _ & Ho & _)|(_ & _ & Ho & _)])])];
      congruence. }
  subst v. split; [reflexivity|]. split; [by rewrite Hok|].
  intros o. split.
  - destruct o as [v'|[]]; try discriminate. intros _. by exists v'.
  - intros [v' ->]. reflexivity.
Qed.

(** C2: whatever runs under the session dependency -- it may return, raise
    or do nothing at all, as long as it does not open or close sessions
    itself -- the session acquired on entry is released exactly once, as
    the last step, and the way the wrapped code ended is passed on. *)
Theorem session_released_exactly_once {A} (use : nat -> Py A) (w : World) :
  leaves_sessions_alone use ->
  let db := next_session w in
  let inner := use db (world (SessionLocal w)) in
  let r := get_db use w in
  outcome r = outcome inner /\
  events r = EvOpen db :: events inner ++ [EvClose db] /\
  count (is_open db) (events r) = 1 /\
  count (is_close db) (events r) = 1 /\
  count lifecycle (events r) = 2 /\
  pending (world r) db = [].
Proof.
  intros Hquiet db inner r.
  destruct (get_db_run use w) as (Ho & He & Hw). fold db inner r in Ho, He, Hw.
  pose proof (Hquiet db (world (SessionLocal w))) as Hq. fold inner in Hq.
  assert (Hopen : count (is_open db) (events inner) = 0).
  { pose proof (count_le (is_open db) lifecycle (events inner)) as Hle.
    rewrite Hq in Hle. apply Nat.le_0_r, Hle. by intros []. }
  assert (Hclose : count (is_close db) (events inner) = 0).
  { pose proof (count_le (is_close db) lifecycle (events inner)) as Hle.
    rewrite Hq in Hle. apply Nat.le_0_r, Hle. by intros []. }
  split; [exact Ho|]. split; [exact He|]. rewrite He, Hw.
  change (EvOpen db :: events inner ++ [EvClose db])
    with ([EvOpen db] ++ events inner ++ [EvClose db]).
  rewrite !count_app, Hopen, Hclose, Hq. unfold count; simpl.
  rewrite Nat.eqb_refl. simpl. repeat split. apply pending_set_pending.
Qed.

(** The code the route runs under the dependency. *)
Lemma endpoint_leaves_sessions_alone body :
  leaves_sessions_alone (call_endpoint body).
Proof.
  unfold call_endpoint. destruct (validate body) as [req|].
  - apply create_user_leaves_sessions_alone.
  - by intros db w.
Qed.

Lemma missing_field_invalid (body : gmap string JSON) f :
  In f required_fields -> body !! f = None -> validate body = None.
Proof.
  intros Hin Hnone. unfold validate, str_field.
  in_events Hin; subst f; rewrite Hnone; by repeat case_match.
Qed.

(** C7: a request whose body lacks one of the six required fields (the
    password, say) ends in a client error before the handler body runs:
    the only steps of the request are the opening and the closing of its
    session -- no hashing, no record, no insert, no commit -- and the table
    is as it was. *)
Theorem missing_field_rejected (body : gmap string JSON) f w :
  In f required_fields ->
  body !! f = None ->
  let r := post_auth body w in
  outcome r = Raised RequestValidationError /\
  is_client_error (respond (outcome r)) = true /\
  events r = [EvOpen (next_session w); EvClose (next_session w)] /\
  (forall e, In e (events r) -> lifecycle e = true) /\
  salts_drawn (world r) = salts_drawn w /\
  users_table (world r) = users_table w.
Proof.
  intros Hin Hnone r.
  destruct (post_auth_invalid body w (missing_field_invalid body f Hin Hnone))
    as (Ho & He & Ht & Hs & _).
  fold r in Ho, He, Ht, Hs. rewrite Ho, He. repeat split; try assumption.
  intros e He'. in_events He'; by subst e.
Qed.

(** C6, as the code has it: of two registrations in a row with the same
    username, the first having succeeded, the second never succeeds.  Its
    error leaves the handler and the route uncaught (a server error),
    nothing is committed, and the table still holds exactly one row with
    that username.  The error is the uniqueness violation of the
    persistence layer whenever the second request gets as far as its
    insert, that is, when its password is hashed and its row can be
    encoded; otherwise it is the error raised before: the refusal of the
    hashing context, or the encoding error of the database driver. *)
Theorem duplicate_username_rejected body1 body2 req1 req2 w v :
  validate body1 = Some req1 ->
  validate body2 = Some req2 ->
  username req1 = username req2 ->
  outcome (post_auth body1 w) = Returned v ->
  let r1 := post_auth body1 w in
  let r2 := post_auth body2 (world r1) in
  let row2 := registration_row req2
                (bcrypt_string (gensalt (salts_drawn (world r1)))
                               (password req2)) in
  outcome r2
  = Raised (if hash_refuses (password req2) then refusal (password req2)
            else if row_encodable encodable row2 then IntegrityError
            else UnicodeEncodeError) /\
  status_code (respond (outcome r2)) = HTTP_500_INTERNAL_SERVER_ERROR /\
  (hash_refuses (password req2) = false ->
   row_encodable encodable row2 = true ->
   outcome r2 = Raised IntegrityError /\
   In (EvRollback (next_session (world r1))) (events r2)) /\
  count is_commit (events r2) = 0 /\
  users_table (world r2) = users_table (world r1) /\
  length (List.filter (has_username (username req1)) (users_table (world r2)))
  = 1.
Proof.
  intros Hv1 Hv2 Hname Hok r1 r2 row2.
  assert (H1 : exists row1,
             u_username row1 = username req1 /\
             existsb (conflicts row1) (users_table w) = false /\
             users_table (world r1) = users_table w ++ [row1]).
  { destruct (post_auth_cases body1 w)
      as [(_ & Ho & _)
         |(req & Hv & [(_ & Ho & _)
                      |(_ & _ & [(e & _ & Ho & _)
                                |(_ & Hfree & _ & _ & Ht)])])];
      try congruence.
    rewrite Hv1 in Hv. injection Hv as <-.
    eexists. split; [|split; [|exact Ht]]; [reflexivity|].
    by rewrite taken_conflicts. }
  destruct H1 as (row1 & Hu1 & Hfree & Ht1).
  assert (Hdup : existsb (conflicts row2) (users_table (world r1)) = true).
  { rewrite Ht1, existsb_app. apply orb_true_intro. right. simpl.
    unfold conflicts. subst row2. cbn [u_username registration_row].
    rewrite Hu1, Hname, String.eqb_refl. reflexivity. }
  assert (Hcount : length (List.filter (has_username (username req1))
                             (users_table (world r1))) = 1).
  { rewrite Ht1, List.filter_app, <- Hu1, (filter_no_conflict _ _ Hfree).
    simpl. unfold has_username. by rewrite String.eqb_refl. }
  destruct (hash_refuses (password req2)) eqn:Hr2.
  - destruct (post_auth_refused body2 req2 (world r1) Hv2 Hr2)
      as (Ho & He & Ht & _).
    fold r2 in Ho, He, Ht. rewrite Ho, He, Ht.
    split; [reflexivity|]. split.
    { unfold refusal.
      by destruct (refused_unsalted (password req2)),
                  (encodable (password req2)). }
    split; [discriminate|]. by repeat split.
  - destruct (post_auth_hashed body2 req2 (world r1) Hv2 Hr2)
      as (_ & _ & Hcase).
    fold r2 row2 in Hcase. unfold insert_row in Hcase. rewrite Hdup in Hcase.
    destruct (row_encodable encodable row2); cbn [negb] in Hcase;
      destruct Hcase as (Ho & He & Ht); rewrite Ho, He, Ht;
      repeat split; try discriminate; try assumption.
    right; right; right; right; left. reflexivity.
Qed.

Lemma validate_payload u e f l p r :
  validate (payload u e f l p r)
  = Some {| username := u; email := e; first_name := f;
            last_name := l; password := p; role := r |}.
Proof. vm_compute. reflexivity. Qed.

(** C9, as the code has it: a payload of six strings passes validation
    whatever the strings are, empty ones included, and the handler goes on
    to hash the password; neither the schema nor the handler looks at the
    content of a field.  What happens then is for the collaborators to
    decide: the call ends in the refusal of the hashing context if that
    refuses the password, in the encoding error of the database driver if
    the row cannot be encoded, in the uniqueness violation if the username
    or the email is taken, and succeeds otherwise, the record with the
    submitted strings being handed to the session whenever the password
    was hashed; with an empty table, six empty strings register like any
    others that are hashed and encoded. *)
Theorem any_strings_accepted u e f l p r w :
  let body := payload u e f l p r in
  let req := {| username := u; email := e; first_name := f;
                last_name := l; password := p; role := r |} in
  let row := registration_row req (bcrypt_string (gensalt (salts_drawn w)) p) in
  let run := post_auth body w in
  validate body = Some req /\
  In (EvHash p) (events run) /\
  (hash_refuses p = false -> In (EvAdd (next_session w) row) (events run)) /\
  outcome run
  = (if hash_refuses p then Raised (refusal p)
     else if negb (row_encodable encodable row) then Raised UnicodeEncodeError
     else if existsb (conflicts row) (users_table w) then Raised IntegrityError
     else Returned PyNone) /\
  (outcome run = Returned PyNone ->
   users_table (world run) = users_table w ++ [row]) /\
  (hash_refuses "" = false ->
   row_encodable encodable
     (registration_row
        {| username := ""; email := ""; first_name := ""; last_name := "";
           password := ""; role := "" |}
        (bcrypt_string (gensalt 0) "")) = true ->
   outcome (post_auth (payload "" "" "" "" "" "") empty_world)
   = Returned PyNone).
Proof.
  intros body req row run.
  assert (Hv : validate body = Some req) by apply validate_payload.
  assert (Hgen : forall body' req' w',
             validate body' = Some req' ->
             let row' := registration_row req'
                           (bcrypt_string (gensalt (salts_drawn w'))
                                          (password req')) in
             let run' := post_auth body' w' in
             In (EvHash (password req')) (events run') /\
             (hash_refuses (password req') = false ->
              In (EvAdd (next_session w') row') (events run')) /\
             outcome run'
             = (if hash_refuses (password req')
                then Raised (refusal (password req'))
                else if negb (row_encodable encodable row')
                     then Raised UnicodeEncodeError
                     else if existsb (conflicts row') (users_table w')
                          then Raised IntegrityError
                          else Returned PyNone) /\
             (outcome run' = Returned PyNone ->
              users_table (world run') = users_table w' ++ [row'])).
  { intros body' req' w' Hv' row' run'.
    destruct (hash_refuses (password req')) eqn:Hr.
    - destruct (post_auth_refused body' req' w' Hv' Hr) as (Ho & He & _).
      fold run' in Ho, He. rewrite Ho, He. repeat split; try discriminate.
      right; left; reflexivity.
    - destruct (post_auth_hashed body' req' w' Hv' Hr) as (_ & _ & Hcase).
      fold run' row' in Hcase. unfold insert_row in Hcase.
      destruct (row_encodable encodable row'); cbn [negb] in *;
        [destruct (existsb (conflicts row') (users_table w'))|];
        destruct Hcase as (Ho & He & Ht); rewrite Ho, He, Ht;
        repeat split; try discriminate;
        first [ right; left; reflexivity
              | right; right; right; left; reflexivity ]. }
  split; [exact Hv|].
  destruct (Hgen body req w Hv) as (H1 & H2 & H3 & H4).
  repeat split; try assumption.
  intros Hempty Henc.
  destruct (Hgen (payload "" "" "" "" "" "") _ empty_world
              (validate_payload "" "" "" "" "" "")) as (_ & _ & H5 & _).
  cbn [password salts_drawn empty_world users_table existsb] in H5.
  by rewrite Hempty, Henc in H5.
Qed.

(** C10: the session dependency never commits.  Its release step only
    closes the session: the table is what the wrapped code left, no commit
    is added, and rows still pending are dropped; so code that adds a row
    and raises before its commit leaves the table unchanged, and so does
    every registration request that ends in an error. *)
Theorem gateway_never_commits {A} (use : nat -> Py A) (w : World)
    (body : gmap string JSON) (u : Users) (e : Exn) :
  let db := next_session w in
  (forall d w', let c := db_close d w' in
                users_table (world c) = users_table w' /\
                pending (world c) d = [] /\
                events c = [EvClose d]) /\
  (let inner := use db (world (SessionLocal w)) in
   let r := get_db use w in
   users_table (world r) = users_table (world inner) /\
   count is_commit (events r) = count is_commit (events inner) /\
   pending (world r) db = []) /\
  (let r := get_db (fun d => do _ <- db_add d u; @raise unit e)%py w in
   outcome r = Raised e /\
   In (EvAdd db u) (events r) /\
   pending (world r) db = [] /\
   users_table (world r) = users_table w) /\
  (forall e', outcome (post_auth body w) = Raised e' ->
              users_table (world (post_auth body w)) = users_table w /\
              pending (world (post_auth body w)) db = []).
Proof.
  intros db. split; [|split; [|split]].
  - intros d w' c. repeat split. apply pending_set_pending.
  - intros inner r.
    destruct (get_db_run use w) as (_ & He & Hw). fold db inner r in He, Hw.
    rewrite He, Hw. split; [reflexivity|]. split; [|apply pending_set_pending].
    change (EvOpen db :: events inner ++ [EvClose db])
      with ([EvOpen db] ++ events inner ++ [EvClose db]).
    rewrite !count_app. unfold count at 1 3; simpl. lia.
  - intros r.
    destruct (get_db_run (fun d => do _ <- db_add d u; @raise unit e)%py w)
      as (Ho & He & Hw).
    fold db r in Ho, He, Hw. rewrite Ho, He, Hw. repeat split.
    + right; left; reflexivity.
    + apply pending_set_pending.
  - intros e' Hraised.
    destruct (post_auth_sessions body w) as (_ & Hp & _).
    split; [|exact Hp].
    destruct (post_auth_cases body w)
      as [(_ & _ & _ & Ht & _)
         |(req & _ & [(_ & _ & _ & Ht & _)
                     |(_ & _ & [(e0 & _ & _ & _ & Ht)|(_ & _ & Ho & _)])])];
      try exact Ht.
    congruence.
Qed.

(** ** Beyond one registration: what a request touches *)

(** X12: whatever record a valid request hands to the session carries, as
    its hashed secret, the value that this request's call of the hashing
    context returned for the submitted password, hashed with the salt
    drawn for this call; its other fields are the submitted ones.  The
    stored value begins with the bcrypt identifier, so it is not the
    submitted password unless that begins with the identifier too. *)
Theorem added_record_carries_hash body req w db u :
  validate body = Some req ->
  In (EvAdd db u) (events (post_auth body w)) ->
  outcome (bcrypt_context_hash (password req) (world (SessionLocal w)))
  = Returned (hashed_password u) /\
  hashed_password u
  = bcrypt_string (gensalt (salts_drawn w)) (password req) /\
  u = registration_row req (hashed_password u) /\
  String.prefix bcrypt_ident (hashed_password u) = true /\
  (String.prefix bcrypt_ident (password req) = false ->
   hashed_password u <> password req).
Proof.
  intros Hv Hin.
  assert (Hu : hash_refuses (password req) = false /\
               u = registration_row req
                     (bcrypt_string (gensalt (salts_drawn w)) (password req))).
  { destruct (post_auth_cases body w)
      as [(Hv' & _)
         |(req' & Hv' & [(_ & _ & He & _)
                        |(Hr & _ & [(e & _ & _ & He & _)
                                   |(_ & _ & _ & He & _)])])];
      [congruence|..];
      rewrite Hv in Hv'; injection Hv' as <-;
      rewrite He in Hin; in_events Hin; split; congruence. }
  destruct Hu as (Hr & ->). cbn [hashed_password registration_row].
  split; [|split; [reflexivity|split; [reflexivity|split]]].
  - unfold bcrypt_context_hash. by rewrite Hr.
  - unfold bcrypt_string. apply prefix_string_app.
  - intros Hp Heq. rewrite <- Heq in Hp. unfold bcrypt_string in Hp.
    by rewrite prefix_string_app in Hp.
Qed.

(** X1: a request commits all or nothing.  Either it returns, has committed
    exactly once and the table is the old one with one row appended; or it
    raises, has committed nothing and the table is the old one.  Rows that
    were in the table are never altered or removed. *)
Theorem request_commits_all_or_nothing body w :
  let r := post_auth body w in
  (outcome r = Returned PyNone /\
   count is_commit (events r) = 1 /\
   exists row, users_table (world r) = users_table w ++ [row])
  \/
  (exists e, outcome r = Raised e /\
             count is_commit (events r) = 0 /\
             users_table (world r) = users_table w).
Proof.
  intros r.
  destruct (post_auth_cases body w)
    as [(_ & Ho & He & Ht & _)
       |(req & _ & [(_ & Ho & He & Ht & _)
                   |(_ & _ & [(e & _ & Ho & He & Ht)
                             |(_ & _ & Ho & He & Ht)])])];
    fold r in Ho, He, Ht; rewrite He.
  - right. by exists RequestValidationError.
  - right. by eexists.
  - right. by exists e.
  - left. repeat split; [exact Ho|]. by eexists.
Qed.

(** X2: a request works on a session of its own.  It takes the next
    session identity; every other session, with the rows pending in it, is
    left as it was; and a row that appears in the table is the row built
    from this request, never a row pending elsewhere. *)
Theorem other_sessions_untouched body w d :
  d <> next_session w ->
  let r := post_auth body w in
  next_session (world r) = S (next_session w) /\
  sessions (world r) !! d = sessions w !! d /\
  pending (world r) d = pending w d /\
  forall u, In u (users_table (world r)) ->
            In u (users_table w) \/
            exists req, validate body = Some req /\
                        u = registration_row req
                              (bcrypt_string (gensalt (salts_drawn w))
                                             (password req)).
Proof.
  intros Hd r. destruct (post_auth_sessions body w) as (Hn & _ & Hframe).
  fold r in Hn, Hframe. split; [exact Hn|]. split; [by apply Hframe|].
  split; [unfold pending; by rewrite Hframe|].
  intros u Hin.
  destruct (post_auth_cases body w)
    as [(_ & _ & _ & Ht & _)
       |(req & Hv & [(_ & _ & _ & Ht & _)
                    |(_ & _ & [(e & _ & _ & _ & Ht)
                              |(_ & _ & _ & _ & Ht)])])];
    fold r in Ht; rewrite Ht in Hin; try (by left).
  apply in_app_or in Hin as [Hin|Hin]; [by left|].
  right. exists req. split; [exact Hv|]. in_events Hin. by subst u.
Qed.

Lemma validate_insert_undeclared (body : gmap string JSON) k v :
  ~ In k required_fields -> validate (<[k := v]> body) = validate body.
Proof.
  intros Hk. unfold validate, str_field.
  rewrite !lookup_insert_ne; [reflexivity|..];
    intros ->; apply Hk; simpl; auto 10.
Qed.

(** X3: members of the body that the schema does not declare have no
    effect: with or without them the request runs the same way and leaves
    the same world, so a client cannot reach the columns the handler sets
    itself. *)
Theorem undeclared_members_ignored (body : gmap string JSON) k v w :
  ~ In k required_fields ->
  post_auth (<[k := v]> body) w = post_auth body w.
Proof.
  intros Hk. unfold post_auth, call_endpoint.
  by rewrite (validate_insert_undeclared body k v Hk).
Qed.

(** X4: a required field that is present but does not hold a string fails
    validation like a missing one: client error, handler body not run,
    nothing hashed, table unchanged. *)
Theorem mistyped_field_rejected (body : gmap string JSON) f v w :
  In f required_fields ->
  body !! f = Some v ->
  (forall s, v <> JString s) ->
  let r := post_auth body w in
  outcome r = Raised RequestValidationError /\
  is_client_error (respond (outcome r)) = true /\
  events r = [EvOpen (next_session w); EvClose (next_session w)] /\
  salts_drawn (world r) = salts_drawn w /\
  users_table (world r) = users_table w.
Proof.
  intros Hin Hsome Hv r.
  assert (Hfield : str_field body f = None).
  { unfold str_field. rewrite Hsome. destruct v; try reflexivity.
    by destruct (Hv s). }
  assert (Hnone : validate body = None).
  { unfold validate. in_events Hin; subst f; fold (str_field body) in *;
      rewrite Hfield; by repeat case_match. }
  destruct (post_auth_invalid body w Hnone) as (Ho & He & Ht & Hs & _).
  fold r in Ho, He, Ht, Hs. rewrite Ho. by repeat split.
Qed.

(** X5: the dependency does not undo a commit.  Code that adds a row (one
    the database driver can encode and the table has no conflict with),
    commits and then raises leaves the row in the table: the error is
    passed on, the session is closed, the commit stands. *)
Theorem commit_survives_later_error (u : Users) (e : Exn) (w : World) :
  row_encodable encodable u = true ->
  existsb (conflicts u) (users_table w) = false ->
  let db := next_session w in
  let r := get_db (fun d => do _ <- db_add d u;
                            do _ <- db_commit encodable d;
                            @raise unit e)%py w in
  outcome r = Raised e /\
  events r = [EvOpen db; EvAdd db u; EvCommit db; EvClose db] /\
  users_table (world r) = users_table w ++ [u] /\
  pending (world r) db = [].
Proof.
  intros Henc Hfree db r.
  destruct (get_db_run (fun d => do _ <- db_add d u;
                                 do _ <- db_commit encodable d;
                                 @raise unit e)%py w) as (Ho & He & Hw).
  fold db r in Ho, He, Hw.
  assert (Hinner :
    (do _ <- db_add db u; do _ <- db_commit encodable db; @raise unit e)%py
      (world (SessionLocal w))
    = {| outcome := Raised e;
         world := {| users_table := users_table w ++ [u];
                     sessions := <[db := []]>
                                   (<[db := [u]]>
                                      (sessions (world (SessionLocal w))));
                     next_session := S db;
                     salts_drawn := salts_drawn w |};
         events := [EvAdd db u; EvCommit db] |}).
  { eapply bind_returned.
    { unfold db_add. rewrite pending_SessionLocal. reflexivity. }
    { reflexivity. }
    eapply bind_returned.
    { unfold db_commit. rewrite pending_set_pending. cbn [app].
      rewrite flush_one.
      unfold insert_row. cbn [users_table set_pending world SessionLocal].
      rewrite Henc, Hfree. reflexivity. }
    { reflexivity. }
    reflexivity. }
  rewrite Hinner in Ho, He, Hw. rewrite Ho, He, Hw.
  repeat split. apply pending_set_pending.
Qed.

(** ** Requests in sequence *)

Lemma serve_cons body rest w :
  serve (body :: rest) w
  = (outcome (post_auth body w) :: (serve rest (world (post_auth body w))).1,
     (serve rest (world (post_auth body w))).2).
Proof. simpl. by destruct (serve rest _). Qed.

Lemma conflicts_sym u v : conflicts u v = conflicts v u.
Proof.
  unfold conflicts.
  by rewrite (String.eqb_sym (u_username u)), (String.eqb_sym (u_email u)).
Qed.

Lemma no_conflicts_snoc table row :
  no_conflicts (table ++ [row])
  = no_conflicts table && negb (existsb (conflicts row) table).
Proof.
  induction table as [|u table IH]; simpl; [reflexivity|].
  rewrite IH, existsb_app. simpl. rewrite (conflicts_sym row u).
  destruct (conflicts u row), (existsb (conflicts u) table),
    (no_conflicts table), (existsb (conflicts row) table); reflexivity.
Qed.

(** One request, as the table and the counters see it. *)
Lemma post_auth_step body w :
  let r := post_auth body w in
  (exists added,
     users_table (world r) = users_table w ++ added /\
     length added = (if is_returned (outcome r) then 1 else 0) /\
     (no_conflicts (users_table w) = true ->
      no_conflicts (users_table (world r)) = true)) /\
  salts_drawn (world r)
  = salts_drawn w + (if draws_salt body then 1 else 0).
Proof.
  intros r. unfold draws_salt.
  destruct (post_auth_cases body w)
    as [(Hv & Ho & _ & Ht & Hs)
       |(req & Hv & [(Hr & Ho & _ & Ht & Hs)
                    |(Hr & Hs & [(e & _ & Ho & _ & Ht)
                                |(_ & Hfree & Ho & _ & Ht)])])];
    fold r in Ho, Ht, Hs; rewrite Hv, Ho, Ht, Hs; try rewrite Hr;
    cbn [is_returned andb negb].
  - split; [exists []; by rewrite app_nil_r | lia].
  - split; [exists []; by rewrite app_nil_r |].
    destruct (refused_unsalted (password req)); simpl; lia.
  - split; [exists []; by rewrite app_nil_r | lia].
  - split; [|lia]. eexists. split; [reflexivity|]. split; [reflexivity|].
    intros Hinv. rewrite no_conflicts_snoc, Hinv, taken_conflicts, Hfree.
    reflexivity.
Qed.

Lemma serve_table bodies w :
  exists added,
    users_table (serve bodies w).2 = users_table w ++ added /\
    length added = length (List.filter is_returned (serve bodies w).1).
Proof.
  revert w. induction bodies as [|body rest IH]; intros w.
  - exists []. by rewrite app_nil_r.
  - rewrite serve_cons. cbn [fst snd].
    destruct (post_auth_step body w) as ((a1 & Ht1 & Hl1 & _) & _).
    destruct (IH (world (post_auth body w))) as (a2 & Ht2 & Hl2).
    exists (a1 ++ a2). rewrite Ht2, Ht1, <- app_assoc. split; [reflexivity|].
    rewrite length_app, Hl1, Hl2. cbn [List.filter].
    destruct (is_returned (outcome (post_auth body w))); reflexivity.
Qed.

(** X6: over any sequence of requests the table grows by exactly one row
    per request that returned (answered 201): the old table stays as a
    prefix, and the number of rows added is the number of successes. *)
Theorem rows_match_successes bodies w :
  let served := serve bodies w in
  length served.1 = length bodies /\
  exists added,
    users_table served.2 = users_table w ++ added /\
    length added = length (List.filter is_returned served.1).
Proof.
  intros served. split; [|apply serve_table].
  subst served. revert w. induction bodies as [|body rest IH]; intros w.
  - reflexivity.
  - rewrite serve_cons. simpl. by rewrite IH.
Qed.

(** X7: uniqueness is an invariant of the table: if no two rows share a
    username or an email, no sequence of requests makes two rows share
    one. *)
Theorem usernames_stay_unique bodies w :
  no_conflicts (users_table w) = true ->
  no_conflicts (users_table (serve bodies w).2) = true.
Proof.
  revert w. induction bodies as [|body rest IH]; intros w Hinv.
  - exact Hinv.
  - rewrite serve_cons. cbn [snd]. apply IH.
    destruct (post_auth_step body w) as ((a & _ & _ & Hkeep) & _).
    by apply Hkeep.
Qed.

(** X8: a registered username is taken for good.  Once a registration has
    succeeded, whatever requests are served after it, a later registration
    with that username (and a password the hashing context accepts) fails
    and changes nothing in the table: with the uniqueness violation if its
    row can be encoded, with the encoding error of the database driver if
    not. *)
Theorem username_taken_for_good body1 req1 v body2 req2 between w :
  validate body1 = Some req1 ->
  outcome (post_auth body1 w) = Returned v ->
  validate body2 = Some req2 ->
  username req2 = username req1 ->
  hash_refuses (password req2) = false ->
  let later := (serve between (world (post_auth body1 w))).2 in
  let row2 := registration_row req2
                (bcrypt_string (gensalt (salts_drawn later)) (password req2)) in
  outcome (post_auth body2 later)
  = Raised (if row_encodable encodable row2 then IntegrityError
            else UnicodeEncodeError) /\
  users_table (world (post_auth body2 later)) = users_table later.
Proof.
  intros Hv1 Hok Hv2 Hname Hr2 later row2.
  assert (Hrow : exists row, In row (users_table (world (post_auth body1 w)))
                             /\ u_username row = username req1).
  { destruct (post_auth_cases body1 w)
      as [(_ & Ho & _)
         |(req & Hv & [(_ & Ho & _)
                      |(_ & _ & [(e & _ & Ho & _)|(_ & _ & _ & _ & Ht)])])];
      try congruence.
    rewrite Ht. eexists. split; [apply in_or_app; right; left; reflexivity|].
    cbn [u_username registration_row]. congruence. }
  destruct Hrow as (row & Hin & Hu).
  destruct (serve_table between (world (post_auth body1 w)))
    as (added & Ht & _). fold later in Ht.
  assert (Htaken : existsb (conflicts row2) (users_table later) = true).
  { apply existsb_exists. exists row. split.
    - rewrite Ht. apply in_or_app. by left.
    - unfold conflicts. subst row2. cbn [u_username registration_row].
      rewrite Hname, Hu, String.eqb_refl. reflexivity. }
  destruct (post_auth_hashed body2 req2 later Hv2 Hr2) as (_ & _ & Hcase).
  fold row2 in Hcase. unfold insert_row in Hcase. rewrite Htaken in Hcase.
  destruct (row_encodable encodable row2); cbn [negb] in Hcase;
    by destruct Hcase as (Ho & _ & Htab).
Qed.

Lemma post_auth_registers body req w :
  validate body = Some req ->
  hash_refuses (password req) = false ->
  row_encodable encodable
    (registration_row req
       (bcrypt_string (gensalt (salts_drawn w)) (password req))) = true ->
  taken req (users_table w) = false ->
  let r := post_auth body w in
  outcome r = Returned PyNone /\
  salts_drawn (world r) = S (salts_drawn w) /\
  users_table (world r)
  = users_table w
    ++ [registration_row req
          (bcrypt_string (gensalt (salts_drawn w)) (password req))].
Proof.
  intros Hv Hr Henc Hfree r.
  destruct (post_auth_hashed body req w Hv Hr) as (Hs & _ & Hcase).
  unfold insert_row in Hcase.
  rewrite Henc, taken_conflicts, Hfree in Hcase. cbn [negb] in Hcase.
  destruct Hcase as (Ho & _ & Ht). by repeat split.
Qed.

(** X9: registrations compose.  Two valid requests whose usernames and
    emails are free in the table and differ from each other, with
    passwords the hashing context accepts and rows the database driver can
    encode, both succeed one after the other; the table ends with their
    two rows in the order of the requests, each hashed with the salt drawn
    for it. *)
Theorem distinct_registrations_both_succeed body1 body2 req1 req2 w :
  validate body1 = Some req1 ->
  validate body2 = Some req2 ->
  hash_refuses (password req1) = false ->
  hash_refuses (password req2) = false ->
  row_encodable encodable
    (registration_row req1
       (bcrypt_string (gensalt (salts_drawn w)) (password req1))) = true ->
  row_encodable encodable
    (registration_row req2
       (bcrypt_string (gensalt (S (salts_drawn w))) (password req2))) = true ->
  taken req1 (users_table w) = false ->
  taken req2 (users_table w) = false ->
  username req1 <> username req2 ->
  email req1 <> email req2 ->
  let r1 := post_auth body1 w in
  let r2 := post_auth body2 (world r1) in
  outcome r1 = Returned PyNone /\
  outcome r2 = Returned PyNone /\
  users_table (world r2)
  = users_table w
    ++ [registration_row req1
          (bcrypt_string (gensalt (salts_drawn w)) (password req1));
        registration_row req2
          (bcrypt_string (gensalt (S (salts_drawn w))) (password req2))].
Proof.
  intros Hv1 Hv2 Hr1 Hr2 He1 He2 Hf1 Hf2 Hname Hmail r1 r2.
  destruct (post_auth_registers body1 req1 w Hv1 Hr1 He1 Hf1)
    as (Ho1 & Hs1 & Ht1).
  fold r1 in Ho1, Hs1, Ht1.
  assert (Hf2' : taken req2 (users_table (world r1)) = false).
  { rewrite Ht1. unfold taken. rewrite existsb_app.
    fold (taken req2 (users_table w)).
    rewrite Hf2. cbn [existsb u_username u_email registration_row orb].
    apply not_eq_sym in Hname, Hmail.
    apply String.eqb_neq in Hname, Hmail. by rewrite Hname, Hmail. }
  rewrite <- Hs1 in He2.
  destruct (post_auth_registers body2 req2 (world r1) Hv2 Hr2 He2 Hf2')
    as (Ho2 & _ & Ht2).
  fold r2 in Ho2, Ht2. split; [exact Ho1|]. split; [exact Ho2|].
  by rewrite Ht2, Ht1, Hs1, <- app_assoc.
Qed.



(** X11: two registrations in a row never store the same hashed secret,
    not even for the same password, as long as the salts drawn for them
    differ (and are of one length): each request hashes with a salt of its
    own. *)
Theorem consecutive_hashes_differ body1 body2 v1 v2 w :
  outcome (post_auth body1 w) = Returned v1 ->
  outcome (post_auth body2 (world (post_auth body1 w))) = Returned v2 ->
  String.length (gensalt (salts_drawn w))
  = String.length (gensalt (S (salts_drawn w))) ->
  gensalt (salts_drawn w) <> gensalt (S (salts_drawn w)) ->
  exists row1 row2,
    users_table (world (post_auth body2 (world (post_auth body1 w))))
    = users_table w ++ [row1; row2] /\
    hashed_password row1 <> hashed_password row2.
Proof.
  intros Hok1 Hok2 Hlen Hne.
  destruct (post_auth_cases body1 w)
    as [(_ & Ho & _)
       |(req1 & _ & [(_ & Ho & _)
                    |(_ & Hs1 & [(e & _ & Ho & _)|(_ & _ & _ & _ & Ht1)])])];
    try congruence.
  destruct (post_auth_cases body2 (world (post_auth body1 w)))
    as [(_ & Ho & _)
       |(req2 & _ & [(_ & Ho & _)
                    |(_ & _ & [(e & _ & Ho & _)|(_ & _ & _ & _ & Ht2)])])];
    try congruence.
  rewrite Hs1, Ht1, <- app_assoc in Ht2.
  eexists _, _. split; [exact Ht2|].
  cbn [hashed_password registration_row]. intros Heq.
  apply Hne. by eapply bcrypt_string_salt_inj.
Qed.

End Route.

(** ** The theorems at work on alice's request *)

(** The route and the application with the stand-ins in place, and the
    runs the examples look at. *)
Abbreviation sample_route :=
  (post_auth sample_checksum sample_refuses sample_gensalt sample_unsalted
     sample_encodable).
Abbreviation sample_serve :=
  (serve sample_checksum sample_refuses sample_gensalt sample_unsalted
     sample_encodable).
Abbreviation alice_run := (sample_route alice_payload empty_world).
Abbreviation again_run := (sample_route alice_again_payload (world alice_run)).
Abbreviation nul_after_alice :=
  (sample_route alice_nul_payload (world alice_run)).
Abbreviation nul_run := (sample_route alice_nul_payload empty_world).
Abbreviation no_password_run :=
  (sample_route alice_without_password empty_world).
Abbreviation busy_run := (sample_route alice_payload busy_world).
Abbreviation bob_run := (sample_route bob_payload (world alice_run)).

Lemma session_released_exactly_once_witness :
  leaves_sessions_alone
    (call_endpoint sample_checksum sample_refuses sample_gensalt sample_unsalted
           sample_encodable alice_payload) /\
  count (is_open 0) (events alice_run) = 1 /\
  count (is_close 0) (events alice_run) = 1.
Proof.
  assert (Hq := endpoint_leaves_sessions_alone
           sample_checksum sample_refuses sample_gensalt sample_unsalted
           sample_encodable alice_payload).
  split; [exact Hq|].
  destruct (session_released_exactly_once _ empty_world Hq)
    as (_ & _ & Hopen & Hclose & _).
  split; [exact Hopen | exact Hclose].
Defined.

Lemma alice_registered_witness :
  outcome alice_run = Returned PyNone /\
  status_code (respond (outcome alice_run)) = 201 /\
  length (users_table (world alice_run)) = 1.
Proof.
  assert (Hok : outcome alice_run = Returned PyNone)
    by (vm_compute; reflexivity).
  split; [exact Hok|].
  destruct (alice_registered
           sample_checksum sample_refuses sample_gensalt sample_unsalted
           sample_encodable empty_world PyNone Hok) as (Hs & Hl & _).
  split; [exact Hs | exact Hl].
Defined.

Lemma created_user_is_active_witness :
  validate alice_payload = Some alice_request /\
  forall u, In (EvNew u) (events alice_run) -> is_active u = true.
Proof.
  assert (Hv : validate alice_payload = Some alice_request)
    by (vm_compute; reflexivity).
  split; [exact Hv|].
  exact (proj1 (created_user_is_active
           sample_checksum sample_refuses sample_gensalt sample_unsalted
           sample_encodable alice_payload alice_request
                  empty_world Hv)).
Defined.

Lemma duplicate_username_rejected_witness :
  validate alice_payload = Some alice_request /\
  validate alice_again_payload = Some alice_again_request /\
  username alice_request = username alice_again_request /\
  outcome alice_run = Returned PyNone /\
  outcome again_run = Raised IntegrityError /\
  users_table (world again_run) = users_table (world alice_run).
Proof.
  assert (Hv1 : validate alice_payload = Some alice_request)
    by (vm_compute; reflexivity).
  assert (Hv2 : validate alice_again_payload = Some alice_again_request)
    by (vm_compute; reflexivity).
  assert (Hn : username alice_request = username alice_again_request)
    by reflexivity.
  assert (Hok : outcome alice_run = Returned PyNone)
    by (vm_compute; reflexivity).
  repeat (split; [assumption|]).
  destruct (duplicate_username_rejected
           sample_checksum sample_refuses sample_gensalt sample_unsalted
           sample_encodable alice_payload alice_again_payload
              alice_request alice_again_request empty_world PyNone
              Hv1 Hv2 Hn Hok) as (_ & _ & Hins & _ & Ht & _).
  split; [|exact Ht].
  exact (proj1 (Hins eq_refl eq_refl)).
Defined.

(** C6 as worded fails here: the second request for alice's username, its
    password starting with a NUL character, does not fail at the
    persistence layer -- it is refused by the hashing context, before
    anything is handed to the session. *)
Lemma duplicate_username_refused_before_insert :
  validate alice_payload = Some alice_request /\
  validate alice_nul_payload = Some alice_nul_request /\
  username alice_request = username alice_nul_request /\
  outcome alice_run = Returned PyNone /\
  outcome nul_after_alice = Raised PasswordValueError /\
  outcome nul_after_alice <> Raised IntegrityError /\
  events nul_after_alice = [EvOpen 1; EvHash nul_password; EvClose 1].
Proof.
  assert (Ho : outcome nul_after_alice = Raised PasswordValueError)
    by (vm_compute; reflexivity).
  repeat split; try (vm_compute; reflexivity); try exact Ho.
  rewrite Ho. discriminate.
Qed.

(** C9 as worded fails here: a payload of six strings whose password
    starts with a NUL character is not registered like any other; the
    hashing context refuses it and nothing is inserted. *)
Lemma six_strings_refused_by_hashing :
  alice_nul_payload
  = payload "alice" "alice@y.org" "Al" "Ice" nul_password "admin" /\
  users_table empty_world = [] /\
  outcome nul_run = Raised PasswordValueError /\
  events nul_run = [EvOpen 0; EvHash nul_password; EvClose 0] /\
  users_table (world nul_run) = [].
Proof. repeat split; vm_compute; reflexivity. Qed.

Lemma missing_field_rejected_witness :
  In "password" required_fields /\
  alice_without_password !! "password" = None /\
  is_client_error (respond (outcome no_password_run)) = true /\
  users_table (world no_password_run) = [].
Proof.
  assert (Hin : In "password" required_fields)
    by (do 4 right; left; reflexivity).
  assert (Hnone : alice_without_password !! "password" = None)
    by (vm_compute; reflexivity).
  split; [exact Hin|]. split; [exact Hnone|].
  destruct (missing_field_rejected
           sample_checksum sample_refuses sample_gensalt sample_unsalted
           sample_encodable alice_without_password "password"
              empty_world Hin Hnone) as (_ & Hc & _ & _ & _ & Ht).
  split; [exact Hc | exact Ht].
Defined.

Lemma registration_returns_nothing_witness :
  outcome alice_run = Returned PyNone /\
  respond (outcome alice_run)
  = {| status_code := HTTP_201_CREATED; response_body := Content PyNone |}.
Proof.
  assert (Hok : outcome alice_run = Returned PyNone)
    by (vm_compute; reflexivity).
  split; [exact Hok|].
  exact (proj1 (proj2 (registration_returns_nothing
           sample_checksum sample_refuses sample_gensalt sample_unsalted
           sample_encodable alice_payload
                         empty_world PyNone Hok))).
Defined.

(** ** The further theorems at work *)

Lemma added_record_carries_hash_witness :
  validate alice_payload = Some alice_request /\
  In (EvAdd 0 alice_row) (events alice_run) /\
  hashed_password alice_row
  = bcrypt_string sample_checksum (sample_gensalt 0) "secret123" /\
  hashed_password alice_row <> "secret123".
Proof.
  assert (Hv : validate alice_payload = Some alice_request)
    by (vm_compute; reflexivity).
  assert (Hin : In (EvAdd 0 alice_row) (events alice_run))
    by (vm_compute; do 3 right; left; reflexivity).
  split; [exact Hv|]. split; [exact Hin|].
  destruct (added_record_carries_hash
           sample_checksum sample_refuses sample_gensalt sample_unsalted
           sample_encodable alice_payload alice_request
              empty_world 0 alice_row Hv Hin) as (_ & Hh & _ & _ & Hne).
  split; [exact Hh | exact (Hne eq_refl)].
Defined.

Lemma other_sessions_untouched_witness :
  7 <> next_session busy_world /\
  sessions (world busy_run) !! 7 = Some [bob_row] /\
  pending (world busy_run) 7 = [bob_row].
Proof.
  assert (Hd : 7 <> next_session busy_world) by discriminate.
  split; [exact Hd|].
  destruct (other_sessions_untouched
           sample_checksum sample_refuses sample_gensalt sample_unsalted
           sample_encodable alice_payload busy_world 7 Hd)
    as (_ & Hs & Hp & _).
  split; [exact Hs | exact Hp].
Defined.

Lemma undeclared_members_ignored_witness :
  ~ In "is_active" required_fields /\
  sample_route (<["is_active" := JBool false]> alice_payload) empty_world
  = alice_run.
Proof.
  assert (Hk : ~ In "is_active" required_fields)
    by (intros H; in_events H).
  split; [exact Hk|].
  exact (undeclared_members_ignored
           sample_checksum sample_refuses sample_gensalt sample_unsalted
           sample_encodable alice_payload "is_active"
           (JBool false) empty_world Hk).
Defined.

Lemma mistyped_field_rejected_witness :
  In "password" required_fields /\
  (<["password" := JNumber 123]> alice_payload) !! "password"
  = Some (JNumber 123) /\
  (forall s, JNumber 123 <> JString s) /\
  outcome (sample_route (<["password" := JNumber 123]> alice_payload)
             empty_world)
  = Raised RequestValidationError.
Proof.
  assert (Hin : In "password" required_fields)
    by (do 4 right; left; reflexivity).
  assert (Hsome : (<["password" := JNumber 123]> alice_payload) !! "password"
                  = Some (JNumber 123)) by (vm_compute; reflexivity).
  assert (Hv : forall s, JNumber 123 <> JString s) by discriminate.
  split; [exact Hin|]. split; [exact Hsome|]. split; [exact Hv|].
  exact (proj1 (mistyped_field_rejected
           sample_checksum sample_refuses sample_gensalt sample_unsalted
           sample_encodable _ "password" (JNumber 123)
                  empty_world Hin Hsome Hv)).
Defined.

Lemma commit_survives_later_error_witness :
  row_encodable sample_encodable bob_row = true /\
  existsb (conflicts bob_row) (users_table empty_world) = false /\
  outcome (get_db (fun d => do _ <- db_add d bob_row;
                            do _ <- db_commit sample_encodable d;
                            @raise unit PasswordValueError)%py empty_world)
  = Raised PasswordValueError /\
  users_table
    (world (get_db (fun d => do _ <- db_add d bob_row;
                             do _ <- db_commit sample_encodable d;
                             @raise unit PasswordValueError)%py empty_world))
  = [bob_row].
Proof.
  assert (Henc : row_encodable sample_encodable bob_row = true)
    by reflexivity.
  assert (Hfree : existsb (conflicts bob_row) (users_table empty_world) = false)
    by reflexivity.
  split; [exact Henc|]. split; [exact Hfree|].
  destruct (commit_survives_later_error sample_encodable bob_row
              PasswordValueError empty_world Henc Hfree) as (Ho & _ & Ht & _).
  split; [exact Ho | exact Ht].
Defined.

Lemma usernames_stay_unique_witness :
  no_conflicts (users_table empty_world) = true /\
  no_conflicts
    (users_table (sample_serve [alice_payload; alice_again_payload; bob_payload]
                    empty_world).2) = true.
Proof.
  assert (Hinv : no_conflicts (users_table empty_world) = true) by reflexivity.
  split; [exact Hinv|].
  exact (usernames_stay_unique
           sample_checksum sample_refuses sample_gensalt sample_unsalted
           sample_encodable
           [alice_payload; alice_again_payload; bob_payload] empty_world Hinv).
Defined.

Lemma username_taken_for_good_witness :
  validate alice_payload = Some alice_request /\
  outcome alice_run = Returned PyNone /\
  validate alice_again_payload = Some alice_again_request /\
  username alice_again_request = username alice_request /\
  sample_refuses (password alice_again_request) = false /\
  users_table
    (world (sample_route alice_again_payload
              (sample_serve [bob_payload; alice_without_password]
                 (world alice_run)).2))
  = users_table (sample_serve [bob_payload; alice_without_password]
                   (world alice_run)).2.
Proof.
  assert (Hv1 : validate alice_payload = Some alice_request)
    by (vm_compute; reflexivity).
  assert (Hok : outcome alice_run = Returned PyNone)
    by (vm_compute; reflexivity).
  assert (Hv2 : validate alice_again_payload = Some alice_again_request)
    by (vm_compute; reflexivity).
  assert (Hn : username alice_again_request = username alice_request)
    by reflexivity.
  assert (Hr : sample_refuses (password alice_again_request) = false)
    by reflexivity.
  repeat (split; [assumption|]).
  exact (proj2 (username_taken_for_good
           sample_checksum sample_refuses sample_gensalt sample_unsalted
           sample_encodable alice_payload alice_request
                  PyNone alice_again_payload alice_again_request
                  [bob_payload; alice_without_password] empty_world
                  Hv1 Hok Hv2 Hn Hr)).
Defined.

Lemma distinct_registrations_both_succeed_witness :
  validate alice_payload = Some alice_request /\
  validate bob_payload = Some bob_request /\
  sample_refuses (password alice_request) = false /\
  sample_refuses (password bob_request) = false /\
  taken alice_request (users_table empty_world) = false /\
  taken bob_request (users_table empty_world) = false /\
  username alice_request <> username bob_request /\
  email alice_request <> email bob_request /\
  outcome bob_run = Returned PyNone.
Proof.
  assert (Hv1 : validate alice_payload = Some alice_request)
    by (vm_compute; reflexivity).
  assert (Hv2 : validate bob_payload = Some bob_request)
    by (vm_compute; reflexivity).
  assert (Hr1 : sample_refuses (password alice_request) = false)
    by reflexivity.
  assert (Hr2 : sample_refuses (password bob_request) = false)
    by reflexivity.
  assert (Hf1 : taken alice_request (users_table empty_world) = false)
    by reflexivity.
  assert (Hf2 : taken bob_request (users_table empty_world) = false)
    by reflexivity.
  assert (Hn : username alice_request <> username bob_request)
    by discriminate.
  assert (Hm : email alice_request <> email bob_request) by discriminate.
  repeat (split; [assumption|]).
  exact (proj1 (proj2 (distinct_registrations_both_succeed
           sample_checksum sample_refuses sample_gensalt sample_unsalted
           sample_encodable
                         alice_payload bob_payload alice_request bob_request
                         empty_world Hv1 Hv2 Hr1 Hr2 eq_refl eq_refl
                         Hf1 Hf2 Hn Hm))).
Defined.

Lemma consecutive_hashes_differ_witness :
  outcome alice_run = Returned PyNone /\
  outcome bob_run = Returned PyNone /\
  String.length (sample_gensalt (salts_drawn empty_world))
  = String.length (sample_gensalt (S (salts_drawn empty_world))) /\
  sample_gensalt (salts_drawn empty_world)
  <> sample_gensalt (S (salts_drawn empty_world)) /\
  exists row1 row2,
    users_table (world bob_run)
    = users_table empty_world ++ [row1; row2] /\
    hashed_password row1 <> hashed_password row2.
Proof.
  assert (Hok1 : outcome alice_run = Returned PyNone)
    by (vm_compute; reflexivity).
  assert (Hok2 : outcome bob_run
                 = Returned PyNone) by (vm_compute; reflexivity).
  assert (Hl : String.length (sample_gensalt (salts_drawn empty_world))
               = String.length (sample_gensalt (S (salts_drawn empty_world))))
    by reflexivity.
  assert (Hne : sample_gensalt (salts_drawn empty_world)
                <> sample_gensalt (S (salts_drawn empty_world)))
    by discriminate.
  repeat (split; [assumption|]).
  exact (consecutive_hashes_differ sample_checksum sample_refuses
           sample_gensalt sample_unsalted sample_encodable
           alice_payload bob_payload PyNone PyNone empty_world
           Hok1 Hok2 Hl Hne).
Defined.
